(** * sentrygin: a Gin middleware that reports panics to Sentry

    Shallow embedding of [sentrygin.go] and the properties of its
    per-request handler.

    The Go file is glue between two libraries.  Its own code is embedded
    as it is written: [New], [handler.handle] and
    [handler.recoverWithSentry].  What it calls is modelled as follows.

    - The Go runtime: a function frame owns a stack of deferred calls; a
      panic unwinds the frame and runs the pending deferred calls, last
      registered first; [recover()], called by a deferred function, returns
      the panic value and stops the panicking; a deferred function that
      panics replaces the current panic.  What [recover()] returns for
      [panic(nil)] depends on the runtime ([GoRuntime]): before Go 1.21,
      and later with [GODEBUG=panicnil=1] (the default when the main
      module declares a Go version below 1.21), it returns nil, as it
      does when there is no panic; otherwise the runtime raises a
      [*runtime.PanicNilError] in place of nil.
    - [context.Context]: a chain of [WithValue] nodes searched from the
      most recent one.
    - The Sentry SDK: every call of the middleware into it is recorded in
      a trace, in program order.  What the SDK answers is a parameter (the
      class [SentrySDK]); [sentry_go] is an instance that follows the
      SDK's documented behaviour.  The SDK calls themselves do not panic.
    - The rest of the handler chain, behind [c.Next()]: a function from
      the [gin.Context] it receives to its outcome (normal return or a
      panic value) and the [gin.Context] it leaves.
    - Requests are values: the middleware never updates one in place
      ([WithContext] returns a copy).  A request value stands for the
      [*http.Request] object with the content it has when the middleware
      passes it on; what a later handler writes into that object in place
      is not modelled, and no statement below is about the fields of a
      request after the chain has run. *)

From Stdlib Require Import List String ZArith Bool Lia.
Import ListNotations.

Set Implicit Arguments.

(** ** Data *)

(** [time.Duration]: a signed 64-bit count of nanoseconds. *)
Definition Duration := Z.
Definition Millisecond : Duration := 1000000%Z.
Definition Second : Duration := (1000 * Millisecond)%Z.

(** An [interface{}] value, as [panic] receives and [recover] returns:
    nil, or a dynamic type together with a value of it.
    [APanicNilError] is the runtime's [*runtime.PanicNilError]. *)
Inductive any : Type :=
| ANil
| AString (s : string)
| AInt (n : Z)
| AError (msg : string)
| APanicNilError.

(** [v == nil] *)
Definition is_nil (v : any) : bool :=
  match v with ANil => true | _ => false end.

(** The setting of the Go runtime that the program's behaviour depends
    on: [panicnil] is true before Go 1.21 and under [GODEBUG=panicnil=1],
    where [panic(nil)] panics with nil itself. *)
Class GoRuntime : Type := { panicnil : bool }.

(** [*sentry.Hub]: hubs are compared by identity. *)
Definition Hub := nat.
(** [sentry.EventID]. *)
Definition EventID := string.

(** Keys of context values.  [HubContextKey] and [RequestContextKey] are
    the SDK's exported keys; [spanContextKey] is its private key for the
    span. *)
Inductive Key : Type :=
| HubContextKey
| RequestContextKey
| spanContextKey
| UserKey (n : nat).

Definition Key_eqb (a b : Key) : bool :=
  match a, b with
  | HubContextKey, HubContextKey => true
  | RequestContextKey, RequestContextKey => true
  | spanContextKey, spanContextKey => true
  | UserKey n, UserKey m => Nat.eqb n m
  | _, _ => false
  end.

(** [context.Context] and [*http.Request]; a request carries a context and
    a context may carry a request. *)
Inductive Context : Type :=
| Background
| WithValue (parent : Context) (key : Key) (val : CtxValue)
with CtxValue : Type :=
| VHub (hub : Hub)
| VSpan (id : nat)
| VRequest (r : Request)
| VUser (s : string)
with Request : Type :=
| mkRequest (method : string) (path : string)
            (header : list (string * string)) (ctx : Context).

Definition Method (r : Request) : string :=
  match r with mkRequest m _ _ _ => m end.
Definition URL_Path (r : Request) : string :=
  match r with mkRequest _ p _ _ => p end.
Definition Header (r : Request) : list (string * string) :=
  match r with mkRequest _ _ h _ => h end.
(** [r.Context()] *)
Definition Request_Context (r : Request) : Context :=
  match r with mkRequest _ _ _ c => c end.
(** [r.WithContext(ctx)]: a copy of [r] with its context changed. *)
Definition Request_WithContext (r : Request) (ctx : Context) : Request :=
  match r with mkRequest m p h _ => mkRequest m p h ctx end.

(** [ctx.Value(key)] *)
Fixpoint Value (ctx : Context) (k : Key) : option CtxValue :=
  match ctx with
  | Background => None
  | WithValue parent k' v => if Key_eqb k' k then Some v else Value parent k
  end.

(** [*sentry.Span]; [span.Context()] is [span_ctx]. *)
Record Span : Type := mkSpan { span_id : nat; span_ctx : Context }.

Inductive SpanOption : Type :=
| TransactionName (name : string)
| ContinueFromRequest (r : Request).

(** [*gin.Context], of which the middleware uses the request only. *)
Record GinContext : Type := mkGin { Request_of : Request }.

Record Options : Type := mkOptions {
  Repanic : bool;
  WaitForDelivery : bool;
  Timeout : Duration
}.

Record handler : Type := mkhandler {
  repanic : bool;
  waitForDelivery : bool;
  timeout : Duration
}.

(** The two [defer] statements of [handle], with their arguments, which Go
    evaluates when the statement executes. *)
Inductive Deferred : Type :=
| DSpanFinish (span : Span)
| DRecoverWithSentry (h : handler) (hub : Hub) (r : Request).

(** What the middleware does to the outside, in program order.  [ENext]
    is the call of [c.Next()] with the request the chain then sees;
    [EDeferred] marks the runtime starting a deferred call. *)
Inductive Event : Type :=
| ECurrentHubClone (hub : Hub)
| EStartSpan (ctx : Context) (op : string) (opts : list SpanOption) (span : Span)
| ESetRequest (hub : Hub) (r : Request)
| ENext (r : Request)
| ERecoverWithContext (hub : Hub) (ctx : Context) (err : any)
                      (eventID : option EventID)
| EFlush (hub : Hub) (t : Duration)
| ESpanFinish (span : Span)
| EDeferred (d : Deferred).

(** The answers of the Sentry SDK. *)
Class SentrySDK : Type := {
  (** [sentry.GetHubFromContext(ctx)]; [None] is nil *)
  GetHubFromContext : Context -> option Hub;
  (** [sentry.SetHubOnContext(ctx, hub)] *)
  SetHubOnContext : Context -> Hub -> Context;
  (** the context of the span with the given identity that [StartSpan]
      makes from [ctx] *)
  StartSpan_Context : Context -> nat -> Context;
  (** the [*EventID] that [hub.RecoverWithContext(ctx, err)] returns after
      the given history; [None] is nil *)
  RecoverWithContext_EventID :
    list Event -> Hub -> Context -> any -> option EventID
}.

(** The rest of the handler chain: the value it calls [panic] with, if
    it panics, and the [gin.Context] it leaves. *)
Definition HandlersChain := GinContext -> option any * GinContext.

(** ** The Go runtime *)

Record World : Type := mkWorld {
  trace : list Event;   (* calls made so far, oldest first *)
  fresh : nat           (* next identity for a hub or a span *)
}.

Record GoState : Type := mkState {
  world : World;
  gin : GinContext;           (* the object [c] points to *)
  defers : list Deferred;     (* pending deferred calls, last registered first *)
  panicking : option any      (* the value the goroutine panics with *)
}.

(** [Panicked v]: the goroutine panics with [v] (the value [recover()]
    would return). *)
Inductive Result (A : Type) : Type :=
| Ret (a : A)
| Panicked (v : any).
Arguments Panicked {A} v.

Definition Go (A : Type) : Type := GoState -> Result A * GoState.

Definition ret {A} (a : A) : Go A := fun s => (Ret a, s).

Definition bind {A B} (m : Go A) (k : A -> Go B) : Go B :=
  fun s =>
    match m s with
    | (Ret a, s') => k a s'
    | (Panicked v, s') => (Panicked v, s')
    end.

Declare Scope go_scope.
Delimit Scope go_scope with go.
Notation "x <- m ;; k" := (bind m (fun x => k))
  (at level 100, m at next level, right associativity) : go_scope.
Notation "m ;; k" := (bind m (fun _ => k))
  (at level 100, right associativity) : go_scope.
Open Scope go_scope.

Definition emit (e : Event) : Go unit :=
  fun s =>
    (Ret tt,
     mkState (mkWorld (trace (world s) ++ [e]) (fresh (world s)))
             (gin s) (defers s) (panicking s)).

Definition history : Go (list Event) := fun s => (Ret (trace (world s)), s).

Definition new_identity : Go nat :=
  fun s =>
    (Ret (fresh (world s)),
     mkState (mkWorld (trace (world s)) (S (fresh (world s))))
             (gin s) (defers s) (panicking s)).

(** [c.Request] *)
Definition c_Request : Go Request := fun s => (Ret (Request_of (gin s)), s).

(** [c.Request = r] *)
Definition set_c_Request (r : Request) : Go unit :=
  fun s => (Ret tt, mkState (world s) (mkGin r) (defers s) (panicking s)).

(** [defer d] *)
Definition defer (d : Deferred) : Go unit :=
  fun s => (Ret tt, mkState (world s) (gin s) (d :: defers s) (panicking s)).

(** The value a goroutine panics with after [panic(v)]: [v], but for a
    nil [v] a [*runtime.PanicNilError] unless [panicnil] is set. *)
Definition raised {rt : GoRuntime} (v : any) : any :=
  if is_nil v && negb panicnil then APanicNilError else v.

(** [panic(v)] *)
Definition panic {rt : GoRuntime} {A} (v : any) : Go A :=
  fun s => (Panicked (raised v), s).

(** [recover()], called by a deferred function: the value the goroutine
    panics with, after which it no longer panics; nil when it does not
    panic. *)
Definition recover : Go any :=
  fun s =>
    (Ret (match panicking s with Some v => v | None => ANil end),
     mkState (world s) (gin s) (defers s) None).

Definition when (b : bool) (m : Go unit) : Go unit :=
  if b then m else ret tt.

Definition isSome {A} (o : option A) : bool :=
  match o with Some _ => true | None => false end.

(** ** The program *)

Section Middleware.

Context {rt : GoRuntime} {sdk : SentrySDK}.
(** the handlers behind [c.Next()] *)
Variable next : HandlersChain.

(** *** Calls into the SDK and into the chain *)

(** [sentry.CurrentHub().Clone()] *)
Definition CurrentHub_Clone : Go Hub :=
  hub <- new_identity ;;
  emit (ECurrentHubClone hub) ;;
  ret hub.

(** [sentry.StartSpan(ctx, op, opts...)] *)
Definition StartSpan (ctx : Context) (op : string) (opts : list SpanOption)
  : Go Span :=
  id <- new_identity ;;
  let span := mkSpan id (StartSpan_Context ctx id) in
  emit (EStartSpan ctx op opts span) ;;
  ret span.

(** [span.Finish()] *)
Definition Span_Finish (span : Span) : Go unit := emit (ESpanFinish span).

(** [hub.Scope().SetRequest(r)] *)
Definition Scope_SetRequest (hub : Hub) (r : Request) : Go unit :=
  emit (ESetRequest hub r).

(** [hub.RecoverWithContext(ctx, err)] *)
Definition RecoverWithContext (hub : Hub) (ctx : Context) (err : any)
  : Go (option EventID) :=
  past <- history ;;
  let eventID := RecoverWithContext_EventID past hub ctx err in
  emit (ERecoverWithContext hub ctx err eventID) ;;
  ret eventID.

(** [hub.Flush(timeout)] *)
Definition Flush (hub : Hub) (t : Duration) : Go unit := emit (EFlush hub t).

(** [c.Next()] *)
Definition Next : Go unit :=
  r <- c_Request ;;
  emit (ENext r) ;;
  fun s =>
    match next (gin s) with
    | (Some v, c') =>
        (Panicked (raised v), mkState (world s) c' (defers s) (panicking s))
    | (None, c') =>
        (Ret tt, mkState (world s) c' (defers s) (panicking s))
    end.

(** *** sentrygin.go *)

(** [func (h *handler) recoverWithSentry(hub *sentry.Hub, r *http.Request)] *)
Definition recoverWithSentry (h : handler) (hub : Hub) (r : Request)
  : Go unit :=
  err <- recover ;;
  when (negb (is_nil err))
    (eventID <- RecoverWithContext hub
                  (WithValue (Request_Context r) RequestContextKey (VRequest r))
                  err ;;
     when (isSome eventID && waitForDelivery h) (Flush hub (timeout h)) ;;
     when (repanic h) (panic err)).

(** [handle] up to its call of [c.Next()]: lines 57 to 76.  It returns the
    hub and the span it works with. *)
Definition handle_setup (h : handler) : Go (Hub * Span) :=
  r0 <- c_Request ;;
  let ctx := Request_Context r0 in
  hc <- match GetHubFromContext ctx with
        | Some hub => ret (hub, ctx)
        | None =>
            hub <- CurrentHub_Clone ;;
            ret (hub, SetHubOnContext ctx hub)
        end ;;
  let '(hub, ctx) := hc in
  span <- StartSpan ctx "http.server"
            [TransactionName (Method r0 ++ " " ++ URL_Path r0)%string;
             ContinueFromRequest r0] ;;
  defer (DSpanFinish span) ;;
  set_c_Request (Request_WithContext r0 (span_ctx span)) ;;
  r <- c_Request ;;
  Scope_SetRequest hub r ;;
  r <- c_Request ;;
  defer (DRecoverWithSentry h hub r) ;;
  ret (hub, span).

(** The body of [func (h *handler) handle(c *gin.Context)]. *)
Definition handle_body (h : handler) : Go unit :=
  handle_setup h ;;
  Next.

(** *** Function calls with deferred calls *)

Definition run_deferred (d : Deferred) : Go unit :=
  emit (EDeferred d) ;;
  match d with
  | DSpanFinish span => Span_Finish span
  | DRecoverWithSentry h hub r => recoverWithSentry h hub r
  end.

(** A result that is a panic becomes the current panic. *)
Definition settle {A} (out : Result A * GoState) : GoState :=
  match out with
  | (Ret _, s) => s
  | (Panicked v, s) => mkState (world s) (gin s) (defers s) (Some v)
  end.

(** Runs the pending deferred calls, the head of the stack (the last one
    registered) first. *)
Fixpoint run_defers (ds : list Deferred) (s : GoState) : GoState :=
  match ds with
  | [] => s
  | d :: rest =>
      run_defers rest
        (settle (run_deferred d
                   (mkState (world s) (gin s) rest (panicking s))))
  end.

(** What the caller of a function sees. *)
Record Outcome : Type := mkOutcome {
  result : Result unit;
  gin_after : GinContext;
  world_after : World
}.

(** Calls a function with the given body on [c]: the body runs in a new
    frame; when it returns or panics the deferred calls of the frame run;
    the call panics if the goroutine is still panicking after them. *)
Definition call (body : Go unit) (c : GinContext) (w : World) : Outcome :=
  let s := settle (body (mkState w c [] None)) in
  let s' := run_defers (defers s) s in
  mkOutcome
    (match panicking s' with Some v => Panicked v | None => Ret tt end)
    (gin s') (world s').

(** [func (h *handler) handle(c *gin.Context)] *)
Definition handle (h : handler) (c : GinContext) (w : World) : Outcome :=
  call (handle_body h) c w.

(** [func New(opts Options) gin.HandlerFunc]; [New_handler] is the
    [&handler{...}] it builds. *)
Definition New_handler (opts : Options) : handler :=
  let opts :=
    if (Timeout opts =? 0)%Z
    then mkOptions (Repanic opts) (WaitForDelivery opts) (2 * Second)%Z
    else opts in
  {| repanic := Repanic opts;
     timeout := Timeout opts;
     waitForDelivery := WaitForDelivery opts |}.

Definition New (opts : Options) : GinContext -> World -> Outcome :=
  handle (New_handler opts).

(** The state in which [handle] calls [c.Next()], and the [gin.Context]
    the chain receives. *)
Definition at_Next (h : handler) (c : GinContext) (w : World) : GoState :=
  snd (handle_setup h (mkState w c [] None)).

Definition downstream (h : handler) (c : GinContext) (w : World) : GinContext :=
  gin (at_Next h c w).

(** The outcome of the chain for this request. *)
Definition chain_outcome (h : handler) (c : GinContext) (w : World)
  : option any :=
  fst (next (downstream h c w)).

End Middleware.

(** ** An SDK and some requests to run the program on *)

(** The SDK as sentry-go documents it: the hub is a context value under
    [HubContextKey], a span's context is the context it was started from
    with the span added, and every report gets the answer [eventID]. *)
Definition sentry_go (eventID : option EventID) : SentrySDK := {|
  GetHubFromContext ctx :=
    match Value ctx HubContextKey with
    | Some (VHub hub) => Some hub
    | _ => None
    end;
  SetHubOnContext ctx hub := WithValue ctx HubContextKey (VHub hub);
  StartSpan_Context ctx id := WithValue ctx spanContextKey (VSpan id);
  RecoverWithContext_EventID _ _ _ _ := eventID
|}.

(** [GET /orders/42], no hub in its context, no trace headers. *)
Definition get_order : GinContext :=
  mkGin (mkRequest "GET" "/orders/42" [] Background).

(** The same request when an earlier middleware has put hub 7 in its context. *)
Definition get_order_with_hub : GinContext :=
  mkGin (mkRequest "GET" "/orders/42" []
           (WithValue Background HubContextKey (VHub 7))).

Definition boom : any := AString "boom".

(** Go before 1.21, and Go from 1.21 on with its default setting. *)
Definition go120 : GoRuntime := {| panicnil := true |}.
Definition go121 : GoRuntime := {| panicnil := false |}.

(** A chain that calls [panic(v)], and one that returns. *)
Definition chain_panics (v : any) : HandlersChain := fun c => (Some v, c).
Definition chain_returns : HandlersChain := fun c => (None, c).

Definition start : World := mkWorld [] 0.

(** Two handlers: one absorbs the panic and waits for delivery, up to
    500ms; one repanics and does not wait. *)
Definition absorbing : handler :=
  New_handler (mkOptions false true (500 * Millisecond)%Z).
Definition repanicking : handler :=
  New_handler (mkOptions true false 0%Z).

(** The SDK when every report is accepted, and when none is. *)
Definition delivering : SentrySDK := sentry_go (Some "e1"%string).
Definition dropping : SentrySDK := sentry_go None.

(** [get_order] as the chain receives it from [start]: hub 0 is cloned,
    span 1 is started. *)
Definition order_ctx : Context :=
  WithValue (WithValue Background HubContextKey (VHub 0)) spanContextKey
    (VSpan 1).
Definition order_handed_on : Request :=
  mkRequest "GET" "/orders/42" [] order_ctx.
Definition order_report_ctx : Context :=
  WithValue order_ctx RequestContextKey (VRequest order_handed_on).

(** ** Observing a run *)

Definition is_hub_clone (e : Event) : bool :=
  match e with ECurrentHubClone _ => true | _ => false end.
Definition is_span_start (e : Event) : bool :=
  match e with EStartSpan _ _ _ _ => true | _ => false end.
Definition is_next (e : Event) : bool :=
  match e with ENext _ => true | _ => false end.
Definition is_report (e : Event) : bool :=
  match e with ERecoverWithContext _ _ _ _ => true | _ => false end.
Definition is_flush (e : Event) : bool :=
  match e with EFlush _ _ => true | _ => false end.
Definition is_span_finish (e : Event) : bool :=
  match e with ESpanFinish _ => true | _ => false end.
(** the two exit actions of [handle] *)
Definition is_span_closing (e : Event) : bool :=
  match e with EDeferred (DSpanFinish _) => true | _ => false end.
Definition is_panic_recovery (e : Event) : bool :=
  match e with EDeferred (DRecoverWithSentry _ _ _) => true | _ => false end.

(** Some event satisfying [p] is followed, later in [t], by one
    satisfying [q]. *)
Fixpoint precedes (p q : Event -> bool) (t : list Event) : bool :=
  match t with
  | [] => false
  | e :: t' => (p e && existsb q t') || precedes p q t'
  end.

(** The events a call added to the trace of the world it started in. *)
Definition emitted (w : World) (o : Outcome) : list Event :=
  skipn (List.length (trace w)) (trace (world_after o)).

(** What [handle] computes before it calls the chain, written out: the
    hub, the context the span is started from, the span, and the request
    handed on.  [handle_setup_run] shows that these are what
    [handle_setup] returns and leaves in the state. *)
Section Setup.

Context {sdk : SentrySDK}.
Variables (c : GinContext) (w : World).

Definition incoming_hub : option Hub :=
  GetHubFromContext (Request_Context (Request_of c)).

Definition working_hub : Hub :=
  match incoming_hub with Some hub => hub | None => fresh w end.

Definition working_ctx : Context :=
  match incoming_hub with
  | Some _ => Request_Context (Request_of c)
  | None => SetHubOnContext (Request_Context (Request_of c)) (fresh w)
  end.

Definition working_span : Span :=
  let id := match incoming_hub with
            | Some _ => fresh w
            | None => S (fresh w)
            end in
  mkSpan id (StartSpan_Context working_ctx id).

Definition working_request : Request :=
  Request_WithContext (Request_of c) (span_ctx working_span).

(** The context [recoverWithSentry] reports with. *)
Definition report_ctx : Context :=
  WithValue (Request_Context working_request) RequestContextKey
    (VRequest working_request).

Definition setup_events : list Event :=
  (match incoming_hub with
   | Some _ => []
   | None => [ECurrentHubClone (fresh w)]
   end) ++
  [EStartSpan working_ctx "http.server"
     [TransactionName
        (Method (Request_of c) ++ " " ++ URL_Path (Request_of c))%string;
      ContinueFromRequest (Request_of c)]
     working_span;
   ESetRequest working_hub working_request].

End Setup.

(** The events of a run after the setup, written out. *)
Section Events.

Context {sdk : SentrySDK}.
Variables (h : handler) (c : GinContext) (w : World).

(** The events up to the start of [recoverWithSentry]. *)
Definition events_to_recovery : list Event :=
  setup_events c w ++
  [ENext (working_request c w);
   EDeferred (DRecoverWithSentry h (working_hub c w) (working_request c w))].

(** The [*EventID] the SDK answers when [recover()] returned [v]. *)
Definition reported_EventID (v : any) : option EventID :=
  RecoverWithContext_EventID (trace w ++ events_to_recovery)
    (working_hub c w) (report_ctx c w) v.

(** The events of [recoverWithSentry] when [recover()] returned [v]. *)
Definition recovery_events (v : any) : list Event :=
  if is_nil v then []
  else
    ERecoverWithContext (working_hub c w) (report_ctx c w) v
      (reported_EventID v) ::
    (if isSome (reported_EventID v) && waitForDelivery h
     then [EFlush (working_hub c w) (timeout h)]
     else []).

(** How the call of [handle] ends when [recover()] returned [v]. *)
Definition recovery_result (v : any) : Result unit :=
  if negb (is_nil v) && repanic h then Panicked v else Ret tt.

Definition closing_events : list Event :=
  [EDeferred (DSpanFinish (working_span c w)); ESpanFinish (working_span c w)].

End Events.

(** What the middleware relies on from the SDK for the hub to be found
    again: a hub set on a context is the hub got from it, and the context
    of a span shows the hub of the context the span was started from. *)
Definition hub_kept_on_context {sdk : SentrySDK} : Prop :=
  (forall ctx hub, GetHubFromContext (SetHubOnContext ctx hub) = Some hub)
  /\ (forall ctx id,
        GetHubFromContext (StartSpan_Context ctx id) = GetHubFromContext ctx).

(** *** More observers *)

Definition is_set_request (e : Event) : bool :=
  match e with ESetRequest _ _ => true | _ => false end.




(** ** The run of [handle], event by event *)

Section Run.

Context {rt : GoRuntime} {sdk : SentrySDK}.
Variable next : HandlersChain.

(** A value that is not nil is raised as it is, and what is raised is
    nil only for [panic(nil)] under [panicnil]. *)
Lemma raised_not_nil (v : any) : is_nil v = false -> raised v = v.
Proof. unfold raised. intros ->. reflexivity. Qed.


Ltac unfold_go :=
  unfold run_deferred, handle_setup, recoverWithSentry, CurrentHub_Clone,
    StartSpan, Scope_SetRequest, RecoverWithContext, Flush, Span_Finish,
    when, bind, ret, emit, history, new_identity, c_Request,
    set_c_Request, defer, recover, panic, settle.

Lemma handle_setup_run (h : handler) (c : GinContext) (w : World) :
  handle_setup h (mkState w c [] None) =
  (Ret (working_hub c w, working_span c w),
   mkState
     (mkWorld (trace w ++ setup_events c w) (S (span_id (working_span c w))))
     (mkGin (working_request c w))
     [DRecoverWithSentry h (working_hub c w) (working_request c w);
      DSpanFinish (working_span c w)]
     None).
Proof.
  unfold setup_events, working_request, working_span, working_ctx,
    working_hub, incoming_hub.
  unfold_go. cbn [world gin defers panicking trace fresh].
  destruct (GetHubFromContext (Request_Context (Request_of c))) as [hub|];
    cbn [world gin defers panicking trace fresh span_id span_ctx Request_of];
    rewrite <- ?app_assoc; reflexivity.
Qed.

Lemma at_Next_run (h : handler) (c : GinContext) (w : World) :
  at_Next h c w =
  mkState
    (mkWorld (trace w ++ setup_events c w) (S (span_id (working_span c w))))
    (mkGin (working_request c w))
    [DRecoverWithSentry h (working_hub c w) (working_request c w);
     DSpanFinish (working_span c w)]
    None.
Proof. unfold at_Next. rewrite handle_setup_run. reflexivity. Qed.

Lemma downstream_request (h : handler) (c : GinContext) (w : World) :
  Request_of (downstream h c w) = working_request c w.
Proof. unfold downstream. rewrite at_Next_run. reflexivity. Qed.

Lemma downstream_gin (h : handler) (c : GinContext) (w : World) :
  downstream h c w = mkGin (working_request c w).
Proof. unfold downstream. rewrite at_Next_run. reflexivity. Qed.

(** The body of [handle]: the setup, then the chain. *)
Lemma handle_body_run (h : handler) (c : GinContext) (w : World) :
  handle_body next h (mkState w c [] None) =
  let s' := fun c' =>
    mkState
      (mkWorld (trace w ++ setup_events c w ++ [ENext (working_request c w)])
         (S (span_id (working_span c w))))
      c'
      [DRecoverWithSentry h (working_hub c w) (working_request c w);
       DSpanFinish (working_span c w)]
      None in
  match next (mkGin (working_request c w)) with
  | (Some v, c') => (Panicked (raised v), s' c')
  | (None, c') => (Ret tt, s' c')
  end.
Proof.
  unfold handle_body. unfold bind at 1. rewrite handle_setup_run.
  unfold Next, c_Request, emit, bind.
  cbn [world gin defers panicking trace fresh Request_of].
  rewrite <- app_assoc.
  destruct (next (mkGin (working_request c w))) as [[v|] c']; reflexivity.
Qed.

Lemma handle_returns (h : handler) (c : GinContext) (w : World) :
  chain_outcome next h c w = None ->
  handle next h c w =
  mkOutcome (Ret tt) (snd (next (downstream h c w)))
    (mkWorld (trace w ++ events_to_recovery h c w ++ closing_events c w)
       (S (span_id (working_span c w)))).
Proof.
  unfold chain_outcome, handle, call. intros Hn.
  rewrite downstream_gin in *. rewrite handle_body_run.
  unfold events_to_recovery, closing_events.
  destruct (next (mkGin (working_request c w))) as [[v|] c'];
    cbn [fst snd] in *; [discriminate|].
  cbn [settle run_defers world gin defers panicking trace fresh].
  unfold_go. cbn [world gin defers panicking trace fresh is_nil negb].
  rewrite <- !app_assoc. reflexivity.
Qed.

Lemma handle_panics (h : handler) (c : GinContext) (w : World) (v : any) :
  chain_outcome next h c w = Some v ->
  handle next h c w =
  mkOutcome (recovery_result h (raised v))
    (snd (next (downstream h c w)))
    (mkWorld
       (trace w ++ events_to_recovery h c w ++
        recovery_events h c w (raised v) ++ closing_events c w)
       (S (span_id (working_span c w)))).
Proof.
  unfold chain_outcome, handle, call. intros Hn.
  rewrite downstream_gin in *. rewrite handle_body_run.
  unfold recovery_result, recovery_events, reported_EventID,
    events_to_recovery, closing_events, report_ctx.
  destruct (next (mkGin (working_request c w))) as [[v'|] c'];
    cbn [fst snd] in *; [|discriminate].
  injection Hn as ->.
  cbn [settle run_defers world gin defers panicking trace fresh].
  unfold_go. cbn [world gin defers panicking trace fresh].
  destruct (is_nil (raised v)) eqn:Hnil;
    cbn [negb andb world gin defers panicking trace fresh].
  - rewrite <- !app_assoc. reflexivity.
  - rewrite (raised_not_nil _ Hnil). rewrite <- !app_assoc. cbn [app].
    destruct (RecoverWithContext_EventID _ _ _ _) as [id|];
      destruct (waitForDelivery h); destruct (repanic h);
      cbn [isSome andb world gin defers panicking trace fresh];
      rewrite <- ?app_assoc; reflexivity.
Qed.

Lemma emitted_app (w : World) (o : Outcome) (evs : list Event) :
  trace (world_after o) = trace w ++ evs -> emitted w o = evs.
Proof.
  unfold emitted. intros ->.
  rewrite skipn_app, skipn_all, Nat.sub_diag. reflexivity.
Qed.

Lemma emitted_returns (h : handler) (c : GinContext) (w : World) :
  chain_outcome next h c w = None ->
  emitted w (handle next h c w) =
  events_to_recovery h c w ++ closing_events c w.
Proof.
  intros Hn. apply emitted_app. rewrite (handle_returns _ _ _ Hn). reflexivity.
Qed.

Lemma emitted_panics (h : handler) (c : GinContext) (w : World) (v : any) :
  chain_outcome next h c w = Some v ->
  emitted w (handle next h c w) =
  events_to_recovery h c w ++ recovery_events h c w (raised v) ++
  closing_events c w.
Proof.
  intros Hn. apply emitted_app. rewrite (handle_panics _ _ _ Hn). reflexivity.
Qed.

End Run.

(** ** Lists of events *)

Lemma precedes_app (p q : Event -> bool) (l1 l2 : list Event) :
  precedes p q (l1 ++ l2) =
  precedes p q l1 || (existsb p l1 && existsb q l2) || precedes p q l2.
Proof.
  induction l1 as [|e l1 IH]; cbn [app precedes existsb].
  - reflexivity.
  - rewrite IH, existsb_app.
    destruct (p e), (existsb q l1), (existsb q l2), (precedes p q l1),
      (existsb p l1), (precedes p q l2); reflexivity.
Qed.

(** ** Properties of the middleware *)

Section Properties.

Context {rt : GoRuntime} {sdk : SentrySDK}.
Variable next : HandlersChain.

Ltac by_events :=
  unfold events_to_recovery, recovery_events, closing_events, setup_events;
  repeat match goal with
         | H : is_nil (raised ?v) = _ |- context [is_nil (raised ?v)] =>
             rewrite H
         | |- context [is_nil (raised ?v)] => destruct (is_nil (raised v))
         end;
  rewrite ?filter_app, ?existsb_app, ?precedes_app;
  repeat match goal with
         | |- context [incoming_hub ?c] => destruct (incoming_hub c)
         | |- context [reported_EventID ?h ?c ?w ?v] =>
             destruct (reported_EventID h c w v)
         | |- context [waitForDelivery ?h] => destruct (waitForDelivery h)
         end;
  cbn.


(** C2 (as amended): at the call of [c.Next()] the pending exit actions
    are the panic recovery, registered last, on top of the span closing,
    registered first; on every exit, normal or panicking, the panic
    recovery therefore starts before the span closing, and never after it. *)
Theorem recovery_runs_before_span_closing
    (h : handler) (c : GinContext) (w : World) :
  let evs := emitted w (handle next h c w) in
  defers (at_Next h c w) =
    [DRecoverWithSentry h (working_hub c w) (Request_of (downstream h c w));
     DSpanFinish (working_span c w)]
  /\ precedes is_panic_recovery is_span_closing evs = true
  /\ precedes is_span_closing is_panic_recovery evs = false
  /\ filter is_span_finish evs = [ESpanFinish (working_span c w)].
Proof.
  intros evs. subst evs. rewrite downstream_request, at_Next_run.
  split; [reflexivity|].
  destruct (chain_outcome next h c w) as [v|] eqn:Hn.
  - rewrite (emitted_panics _ _ _ _ Hn).
    repeat split; by_events; reflexivity.
  - rewrite (emitted_returns _ _ _ _ Hn).
    repeat split; by_events; reflexivity.
Qed.


(** C4: without [Repanic], a panic of the chain is absorbed.  The chain
    is called, once, with the request [handle] prepared; its panic leaves
    [c.Next()] and the body of [handle]; the deferred [recoverWithSentry]
    then runs, reports the panic unless [recover()] returned nil for it,
    and [handle] returns normally. *)
Theorem no_repanic_returns_normally
    (h : handler) (c : GinContext) (w : World) (v : any) :
  repanic h = false ->
  chain_outcome next h c w = Some v ->
  let evs := emitted w (handle next h c w) in
  result (handle next h c w) = Ret tt
  /\ fst (handle_body next h (mkState w c [] None)) = Panicked (raised v)
  /\ filter is_next evs = [ENext (Request_of (downstream h c w))]
  /\ precedes is_next is_panic_recovery evs = true
  /\ existsb is_report evs = negb (is_nil (raised v))
  /\ precedes is_next is_report evs = negb (is_nil (raised v)).
Proof.
  intros Hr Hn evs. subst evs.
  rewrite (emitted_panics _ _ _ _ Hn), (handle_panics _ _ _ _ Hn).
  cbn [result]. unfold recovery_result. rewrite Hr, andb_false_r.
  split; [reflexivity|]. split.
  - rewrite handle_body_run. unfold chain_outcome in Hn.
    rewrite downstream_gin in Hn.
    destruct (next (mkGin (working_request c w))) as [[v'|] c'];
      cbn [fst] in *; [|discriminate].
    injection Hn as ->. reflexivity.
  - rewrite downstream_request.
    destruct (is_nil (raised v)) eqn:Hnil;
      repeat split; by_events; reflexivity.
Qed.

(** C5: after the report of a panic, [hub.Flush] is called if and only if
    the report returned a non-nil event identifier and [WaitForDelivery]
    is set; a flush that happens is on the handler's hub, with the
    handler's timeout, once, after the report.  A panic is reported when
    [recover()] returns a non-nil value for it. *)
Theorem flush_iff_event_and_wait
    (h : handler) (c : GinContext) (w : World) (v : any) :
  chain_outcome next h c w = Some v ->
  is_nil (raised v) = false ->
  let evs := emitted w (handle next h c w) in
  let eventID := reported_EventID h c w (raised v) in
  filter is_report evs =
    [ERecoverWithContext (working_hub c w) (report_ctx c w) (raised v)
       eventID]
  /\ (existsb is_flush evs = true <->
      eventID <> None /\ waitForDelivery h = true)
  /\ (existsb is_flush evs = true ->
      filter is_flush evs = [EFlush (working_hub c w) (timeout h)]
      /\ precedes is_report is_flush evs = true).
Proof.
  intros Hn Hnil evs eventID. subst evs eventID.
  rewrite (emitted_panics _ _ _ _ Hn).
  split; [by_events; reflexivity|].
  unfold events_to_recovery, recovery_events, closing_events, setup_events.
  rewrite Hnil.
  rewrite ?filter_app, ?existsb_app, ?precedes_app.
  destruct (incoming_hub c); destruct (reported_EventID h c w (raised v));
    destruct (waitForDelivery h); cbn;
    (split; [split; [intros H; try discriminate; split; congruence
                    | intros [H1 H2]; congruence]
            | intros H; try discriminate; split; reflexivity]).
Qed.

(** C6: when the chain returns without a panic, the run of [handle]
    starts one span and finishes one span, the same one, and emits no
    report and no flush; [handle] returns normally. *)
Theorem no_panic_one_span_no_report
    (h : handler) (c : GinContext) (w : World) :
  chain_outcome next h c w = None ->
  let evs := emitted w (handle next h c w) in
  (exists ctx op opts,
     filter is_span_start evs = [EStartSpan ctx op opts (working_span c w)])
  /\ filter is_span_finish evs = [ESpanFinish (working_span c w)]
  /\ filter is_report evs = []
  /\ filter is_flush evs = []
  /\ result (handle next h c w) = Ret tt.
Proof.
  intros Hn evs. subst evs.
  rewrite (emitted_returns _ _ _ _ Hn), (handle_returns _ _ _ _ Hn).
  split; [do 3 eexists; by_events; reflexivity|].
  repeat split; by_events; reflexivity.
Qed.

(** C7: when the context of the incoming request has no hub, [handle]
    clones the current hub once, sets the clone on a context derived from
    the request's, starts the span from that context, and the clone is
    the hub of the context the chain receives; when the context has a hub,
    [handle] clones nothing and that hub is the one the chain finds.  The
    SDK is taken to keep a hub on the contexts derived from the one it was
    set on. *)
Theorem hub_created_only_when_absent
    (h : handler) (c : GinContext) (w : World) :
  hub_kept_on_context ->
  let evs := emitted w (handle next h c w) in
  let ctx0 := Request_Context (Request_of c) in
  let ctx_next := Request_Context (Request_of (downstream h c w)) in
  match GetHubFromContext ctx0 with
  | None =>
      exists hub op opts span,
        filter is_hub_clone evs = [ECurrentHubClone hub]
        /\ filter is_span_start evs =
             [EStartSpan (SetHubOnContext ctx0 hub) op opts span]
        /\ precedes is_hub_clone is_next evs = true
        /\ GetHubFromContext ctx_next = Some hub
  | Some hub =>
      filter is_hub_clone evs = []
      /\ GetHubFromContext ctx_next = Some hub
  end.
Proof.
  intros [Hset Hspan] evs ctx0 ctx_next. subst evs ctx0 ctx_next.
  rewrite downstream_request.
  assert (Hevs : exists tl,
             emitted w (handle next h c w) =
             events_to_recovery h c w ++ tl
             /\ filter is_hub_clone tl = []
             /\ filter is_span_start tl = []).
  { destruct (chain_outcome next h c w) as [v|] eqn:Hn.
    - rewrite (emitted_panics _ _ _ _ Hn). eexists. split; [reflexivity|].
      split; by_events; reflexivity.
    - rewrite (emitted_returns _ _ _ _ Hn). eexists. split; [reflexivity|].
      split; reflexivity. }
  destruct Hevs as (tl & -> & Htl & Hts).
  unfold working_request, working_span, working_ctx.
  rewrite !filter_app, Htl, Hts, precedes_app.
  unfold events_to_recovery, setup_events, working_span, working_ctx,
    incoming_hub.
  destruct (GetHubFromContext (Request_Context (Request_of c))) as [hub|] eqn:Hc.
  - split; [reflexivity|].
    destruct (Request_of c); cbn. rewrite Hspan. exact Hc.
  - do 4 eexists.
    split; [reflexivity|]. split; [reflexivity|]. split; [reflexivity|].
    destruct (Request_of c); cbn. rewrite Hspan, Hset. reflexivity.
Qed.

(** C8: for every request, [handle] starts one span, of operation
    [http.server], named by the request's method, one space and its URL
    path, continued from the incoming request; it then puts the span's
    context on the request, and the chain is called after that, with the
    request that carries the span's context. *)
Theorem span_named_and_context_replaced
    (h : handler) (c : GinContext) (w : World) :
  let evs := emitted w (handle next h c w) in
  let r0 := Request_of c in
  let span := working_span c w in
  filter is_span_start evs =
    [EStartSpan (working_ctx c w) "http.server"
       [TransactionName (Method r0 ++ " " ++ URL_Path r0)%string;
        ContinueFromRequest r0]
       span]
  /\ Request_of (downstream h c w) = Request_WithContext r0 (span_ctx span)
  /\ filter is_next evs = [ENext (Request_WithContext r0 (span_ctx span))]
  /\ precedes is_span_start is_next evs = true.
Proof.
  intros evs r0 span. subst evs r0 span. rewrite downstream_request.
  destruct (chain_outcome next h c w) as [v|] eqn:Hn.
  - rewrite (emitted_panics _ _ _ _ Hn).
    repeat split; by_events; reflexivity.
  - rewrite (emitted_returns _ _ _ _ Hn).
    repeat split; by_events; reflexivity.
Qed.

(** C9: [New] makes the handler function of a [handler] whose timeout is
    2 seconds when the option [Timeout] is zero and the option's value
    otherwise, and whose [repanic] and [waitForDelivery] are the options'
    [Repanic] and [WaitForDelivery]. *)
Theorem New_resolves_timeout (opts : Options) :
  New next opts = handle next (New_handler opts)
  /\ (Timeout opts = 0%Z ->
      timeout (New_handler opts) = 2000000000%Z
      /\ timeout (New_handler opts) = (2 * Second)%Z)
  /\ (Timeout opts <> 0%Z -> timeout (New_handler opts) = Timeout opts)
  /\ repanic (New_handler opts) = Repanic opts
  /\ waitForDelivery (New_handler opts) = WaitForDelivery opts.
Proof.
  unfold New, New_handler.
  split; [reflexivity|].
  destruct (Z.eqb_spec (Timeout opts) 0) as [E|E]; cbn.
  - repeat split; intros; try reflexivity; contradiction.
  - repeat split; intros; try reflexivity; contradiction.
Qed.

(** C10: a negative [Timeout] is not replaced by [New]; when the chain
    panics, the panic is reported (recovered as non-nil), the report
    returns an event identifier and [WaitForDelivery] is set, that
    negative duration is what [hub.Flush] is called with. *)
Theorem negative_timeout_reaches_flush
    (opts : Options) (c : GinContext) (w : World) (v : any) :
  (Timeout opts < 0)%Z ->
  WaitForDelivery opts = true ->
  chain_outcome next (New_handler opts) c w = Some v ->
  is_nil (raised v) = false ->
  reported_EventID (New_handler opts) c w (raised v) <> None ->
  timeout (New_handler opts) = Timeout opts
  /\ filter is_flush (emitted w (New next opts c w)) =
       [EFlush (working_hub c w) (Timeout opts)].
Proof.
  intros Hneg Hwait Hn Hnil Hid.
  assert (Ht : timeout (New_handler opts) = Timeout opts).
  { unfold New_handler.
    destruct (Z.eqb_spec (Timeout opts) 0) as [E|E]; [lia|reflexivity]. }
  assert (Hw : waitForDelivery (New_handler opts) = true).
  { unfold New_handler.
    destruct (Timeout opts =? 0)%Z; cbn; exact Hwait. }
  split; [exact Ht|].
  unfold New. rewrite (emitted_panics _ _ _ _ Hn).
  unfold events_to_recovery, recovery_events, closing_events, setup_events.
  rewrite Hnil, !filter_app, Hw, Ht.
  destruct (reported_EventID (New_handler opts) c w (raised v));
    [|contradiction].
  destruct (incoming_hub c); reflexivity.
Qed.

End Properties.

(** ** Further properties of the middleware *)

Lemma Request_Context_WithContext (r : Request) (ctx : Context) :
  Request_Context (Request_WithContext r ctx) = ctx.
Proof. destruct r; reflexivity. Qed.

Section Further.

Context {rt : GoRuntime} {sdk : SentrySDK}.
Variable next : HandlersChain.

Ltac open_events :=
  unfold events_to_recovery, recovery_events, closing_events, setup_events;
  repeat match goal with
         | |- context [is_nil (raised ?v)] => destruct (is_nil (raised v))
         end;
  rewrite ?filter_app, ?existsb_app, ?precedes_app;
  repeat match goal with
         | |- context [incoming_hub ?c] => destruct (incoming_hub c)
         | |- context [reported_EventID ?h ?c ?w ?v] =>
             destruct (reported_EventID h c w v)
         | |- context [waitForDelivery ?h] => destruct (waitForDelivery h)
         end;
  cbn.

Ltac in_events H :=
  unfold events_to_recovery, recovery_events, closing_events, setup_events
    in H;
  repeat match type of H with
         | context [is_nil (raised ?v)] => destruct (is_nil (raised v))
         | context [incoming_hub ?c] => destruct (incoming_hub c)
         | context [reported_EventID ?h ?c ?w ?v] =>
             destruct (reported_EventID h c w v)
         | context [waitForDelivery ?h] => destruct (waitForDelivery h)
         end;
  cbn in H;
  repeat (destruct H as [H|H]; try discriminate H);
  try contradiction.

(** Every flush of a run is on the handler's hub, with the handler's
    timeout, and the handler waits for delivery. *)
Lemma flush_event_inv (h : handler) (c : GinContext) (w : World)
    (hub : Hub) (t : Duration) :
  In (EFlush hub t) (emitted w (handle next h c w)) ->
  hub = working_hub c w /\ t = timeout h /\ waitForDelivery h = true.
Proof.
  destruct (chain_outcome next h c w) as [v|] eqn:Hn.
  - rewrite (emitted_panics _ _ _ _ Hn). intros H.
    in_events H; injection H as <- <-; repeat split.
  - rewrite (emitted_returns _ _ _ _ Hn). intros H. in_events H.
Qed.

(** Every report of a run is on the handler's hub, with the context made
    from the request handed to the chain. *)
Lemma report_event_inv (h : handler) (c : GinContext) (w : World)
    (hub : Hub) (ctx : Context) (err : any) (eventID : option EventID) :
  In (ERecoverWithContext hub ctx err eventID) (emitted w (handle next h c w)) ->
  hub = working_hub c w /\ ctx = report_ctx c w.
Proof.
  destruct (chain_outcome next h c w) as [v|] eqn:Hn.
  - rewrite (emitted_panics _ _ _ _ Hn). intros H.
    set (r := report_ctx c w) in *. set (wh := working_hub c w) in *.
    in_events H; injection H as <- <- _ _; split; reflexivity.
  - rewrite (emitted_returns _ _ _ _ Hn). intros H. in_events H.
Qed.

(** X2: [handle] does not put the incoming request back: when it is done,
    [c] is as the chain left it, and what the chain received is [c] with
    the request that carries the span's context. *)
Theorem request_not_restored (h : handler) (c : GinContext) (w : World) :
  gin_after (handle next h c w) = snd (next (downstream h c w))
  /\ downstream h c w =
     mkGin (Request_WithContext (Request_of c) (span_ctx (working_span c w))).
Proof.
  split; [|apply downstream_gin].
  destruct (chain_outcome next h c w) as [v|] eqn:Hn.
  - rewrite (handle_panics _ _ _ _ Hn). reflexivity.
  - rewrite (handle_returns _ _ _ _ Hn). reflexivity.
Qed.

(** X3: on every exit the finish of the span is the last thing [handle]
    does, and it happens once: the span covers the chain, the report of a
    reported panic and the wait for its delivery. *)
Theorem span_finished_last (h : handler) (c : GinContext) (w : World) :
  exists before,
    emitted w (handle next h c w) =
      before ++ [ESpanFinish (working_span c w)]
    /\ existsb is_span_finish before = false
    /\ existsb is_next before = true
    /\ existsb is_report before =
         match chain_outcome next h c w with
         | Some v => negb (is_nil (raised v))
         | None => false
         end
    /\ existsb is_flush before =
         existsb is_flush (emitted w (handle next h c w)).
Proof.
  destruct (chain_outcome next h c w) as [v|] eqn:Hn.
  - rewrite (emitted_panics _ _ _ _ Hn).
    exists (events_to_recovery h c w ++ recovery_events h c w (raised v) ++
            [EDeferred (DSpanFinish (working_span c w))]).
    split; [unfold closing_events; rewrite <- !app_assoc; reflexivity|].
    repeat split; open_events; reflexivity.
  - rewrite (emitted_returns _ _ _ _ Hn).
    exists (events_to_recovery h c w ++
            [EDeferred (DSpanFinish (working_span c w))]).
    split; [unfold closing_events; rewrite <- !app_assoc; reflexivity|].
    repeat split; open_events; reflexivity.
Qed.

(** X4: [handle] records the request on the scope of its hub once, after
    the span is started and before the chain runs; it is the request the
    chain receives, the one that carries the span's context. *)
Theorem request_set_on_scope_before_chain
    (h : handler) (c : GinContext) (w : World) :
  let evs := emitted w (handle next h c w) in
  filter is_set_request evs =
    [ESetRequest (working_hub c w) (Request_of (downstream h c w))]
  /\ precedes is_span_start is_set_request evs = true
  /\ precedes is_set_request is_next evs = true
  /\ precedes is_next is_set_request evs = false.
Proof.
  intros evs. subst evs. rewrite downstream_request.
  destruct (chain_outcome next h c w) as [v|] eqn:Hn.
  - rewrite (emitted_panics _ _ _ _ Hn).
    repeat split; open_events; reflexivity.
  - rewrite (emitted_returns _ _ _ _ Hn).
    repeat split; open_events; reflexivity.
Qed.

(** X5: the timeout of a handler made by [New] is never zero, and no run
    of it calls [hub.Flush] with a zero timeout. *)
Theorem New_timeout_never_zero (opts : Options) (c : GinContext) (w : World) :
  timeout (New_handler opts) <> 0%Z
  /\ (forall hub t,
        In (EFlush hub t) (emitted w (New next opts c w)) ->
        t = timeout (New_handler opts) /\ t <> 0%Z).
Proof.
  assert (Hz : timeout (New_handler opts) <> 0%Z).
  { unfold New_handler.
    destruct (Z.eqb_spec (Timeout opts) 0) as [E|E]; cbn.
    - discriminate.
    - exact E. }
  split; [exact Hz|].
  intros hub t Hin. unfold New in Hin.
  destruct (flush_event_inv _ _ _ _ _ Hin) as (_ & -> & _).
  split; [reflexivity|exact Hz].
Qed.


(** X7: of the request, the middleware changes the context only: the
    request the chain is called with has the method, the URL path and the
    headers of the incoming one. *)
Theorem request_fields_unchanged (h : handler) (c : GinContext) (w : World) :
  exists r,
    filter is_next (emitted w (handle next h c w)) = [ENext r]
    /\ Method r = Method (Request_of c)
    /\ URL_Path r = URL_Path (Request_of c)
    /\ Header r = Header (Request_of c).
Proof.
  exists (working_request c w). split.
  - destruct (chain_outcome next h c w) as [v|] eqn:Hn.
    + rewrite (emitted_panics _ _ _ _ Hn). open_events; reflexivity.
    + rewrite (emitted_returns _ _ _ _ Hn). open_events; reflexivity.
  - unfold working_request. destruct (Request_of c); repeat split.
Qed.

(** The hub of the calls a run makes on a hub: [SetRequest] and, if there
    is one, the report. *)
Lemma hub_of_run (h : handler) (c : GinContext) (w : World) :
  exists r,
    filter is_set_request (emitted w (handle next h c w)) =
      [ESetRequest (working_hub c w) r].
Proof.
  exists (working_request c w).
  destruct (chain_outcome next h c w) as [v|] eqn:Hn.
  - rewrite (emitted_panics _ _ _ _ Hn). open_events; reflexivity.
  - rewrite (emitted_returns _ _ _ _ Hn). open_events; reflexivity.
Qed.

Lemma no_clone_with_hub (h : handler) (c : GinContext) (w : World) (hub : Hub) :
  incoming_hub c = Some hub ->
  filter is_hub_clone (emitted w (handle next h c w)) = [].
Proof.
  intros Hc.
  destruct (chain_outcome next h c w) as [v|] eqn:Hn.
  - rewrite (emitted_panics _ _ _ _ Hn).
    unfold events_to_recovery, recovery_events, closing_events, setup_events.
    rewrite Hc, !filter_app.
    destruct (is_nil _); [reflexivity|]. destruct (isSome _ && _); reflexivity.
  - rewrite (emitted_returns _ _ _ _ Hn).
    unfold events_to_recovery, closing_events, setup_events.
    rewrite Hc, !filter_app. reflexivity.
Qed.

End Further.

Section Nested.

Context {rt : GoRuntime} {sdk : SentrySDK}.
(** the chain behind the first instance, and behind the second *)
Variables next1 next2 : HandlersChain.

(** X8: a second instance of the middleware that runs on the
    [gin.Context] a first instance hands to its chain finds the hub of
    the first on the request's context: the two runs make their calls on
    the same hub, which is the hub of that context, and the second run
    clones no hub.  The SDK is taken to keep a hub on the contexts
    derived from the one it was set on. *)
Theorem nested_instance_shares_hub
    (h1 h2 : handler) (c : GinContext) (w w2 : World) :
  hub_kept_on_context ->
  let c2 := downstream h1 c w in
  let evs1 := emitted w (handle next1 h1 c w) in
  let evs2 := emitted w2 (handle next2 h2 c2 w2) in
  exists hub r1 r2,
    filter is_set_request evs1 = [ESetRequest hub r1]
    /\ GetHubFromContext (Request_Context (Request_of c2)) = Some hub
    /\ filter is_set_request evs2 = [ESetRequest hub r2]
    /\ filter is_hub_clone evs2 = []
    /\ (forall hub' ctx err eventID,
          In (ERecoverWithContext hub' ctx err eventID) evs2 -> hub' = hub).
Proof.
  intros [Hset Hspan] c2 evs1 evs2. subst c2 evs1 evs2.
  assert (H : incoming_hub (downstream h1 c w) = Some (working_hub c w)).
  { rewrite downstream_gin. unfold incoming_hub at 1. cbn [Request_of].
    unfold working_request. rewrite Request_Context_WithContext.
    unfold working_span, working_ctx, working_hub. cbn [span_ctx].
    destruct (incoming_hub c) as [hub|] eqn:Hc; rewrite Hspan.
    - exact Hc.
    - apply Hset. }
  assert (Hw : working_hub (downstream h1 c w) w2 = working_hub c w).
  { unfold working_hub at 1. rewrite H. reflexivity. }
  destruct (hub_of_run next1 h1 c w) as [r1 H1].
  destruct (hub_of_run next2 h2 (downstream h1 c w) w2) as [r2 H2].
  exists (working_hub c w), r1, r2.
  split; [exact H1|]. split; [exact H|].
  split; [rewrite H2, Hw; reflexivity|].
  split; [exact (no_clone_with_hub next2 h2 _ w2 H)|].
  intros hub' ctx err eventID Hin.
  destruct (report_event_inv _ _ _ _ _ _ _ _ Hin) as (-> & _). exact Hw.
Qed.

End Nested.

(** ** The properties on concrete requests *)

(** The run of the specification's example: [GET /orders/42] without a
    hub, a chain that panics with ["boom"], and the options
    [{Repanic: false, WaitForDelivery: true, Timeout: 500ms}]. *)
Example order_42_run :
  handle (rt := go120) (sdk := delivering) (chain_panics boom) absorbing
    get_order start =
  mkOutcome (Ret tt) (mkGin order_handed_on)
    (mkWorld
       [ECurrentHubClone 0;
        EStartSpan (WithValue Background HubContextKey (VHub 0)) "http.server"
          [TransactionName "GET /orders/42";
           ContinueFromRequest (Request_of get_order)]
          (mkSpan 1 order_ctx);
        ESetRequest 0 order_handed_on;
        ENext order_handed_on;
        EDeferred (DRecoverWithSentry absorbing 0 order_handed_on);
        ERecoverWithContext 0 order_report_ctx boom (Some "e1"%string);
        EFlush 0 500000000%Z;
        EDeferred (DSpanFinish (mkSpan 1 order_ctx));
        ESpanFinish (mkSpan 1 order_ctx)]
       2).
Proof. reflexivity. Qed.

(** The same request with [Repanic]: the panic leaves [handle] after the
    span is finished. *)
Example order_42_repanic :
  result (handle (rt := go120) (sdk := delivering) (chain_panics boom)
            repanicking get_order start) = Panicked boom
  /\ existsb is_span_finish
       (emitted start
          (handle (rt := go120) (sdk := delivering) (chain_panics boom)
             repanicking get_order start)) = true.
Proof. split; reflexivity. Qed.

(** The same request when the chain calls [panic(nil)], before Go 1.21:
    [recover()] returns nil, nothing is reported and the panic is stopped
    even with [Repanic]. *)
Example order_42_panic_nil :
  handle (rt := go120) (sdk := delivering) (chain_panics ANil) repanicking
    get_order start =
  mkOutcome (Ret tt) (mkGin order_handed_on)
    (mkWorld
       [ECurrentHubClone 0;
        EStartSpan (WithValue Background HubContextKey (VHub 0)) "http.server"
          [TransactionName "GET /orders/42";
           ContinueFromRequest (Request_of get_order)]
          (mkSpan 1 order_ctx);
        ESetRequest 0 order_handed_on;
        ENext order_handed_on;
        EDeferred (DRecoverWithSentry repanicking 0 order_handed_on);
        EDeferred (DSpanFinish (mkSpan 1 order_ctx));
        ESpanFinish (mkSpan 1 order_ctx)]
       2).
Proof. reflexivity. Qed.

(** From Go 1.21 on the runtime raises a [*runtime.PanicNilError], which
    is reported and raised again. *)
Example order_42_panic_nil_go121 :
  result (handle (rt := go121) (sdk := delivering) (chain_panics ANil)
            repanicking get_order start) = Panicked APanicNilError
  /\ filter is_report
       (emitted start
          (handle (rt := go121) (sdk := delivering) (chain_panics ANil)
             repanicking get_order start)) =
     [ERecoverWithContext 0 order_report_ctx APanicNilError
        (Some "e1"%string)].
Proof. split; reflexivity. Qed.



(** C2 as the specification states it, that the span closing runs before
    the panic recovery because the recovery was registered earlier, fails
    on [GET /orders/42]: the recovery is on top of the stack of pending
    deferred calls, and the span closing comes before the recovery
    neither when the chain panics nor when it returns. *)
Lemma span_closing_before_recovery_fails :
  defers (at_Next (sdk := delivering) absorbing get_order start) =
    [DRecoverWithSentry absorbing 0 order_handed_on;
     DSpanFinish (mkSpan 1 order_ctx)]
  /\ precedes is_span_closing is_panic_recovery
       (emitted start
          (handle (rt := go120) (sdk := delivering) (chain_panics boom)
             absorbing get_order start)) = false
  /\ precedes is_span_closing is_panic_recovery
       (emitted start
          (handle (rt := go120) (sdk := delivering) chain_returns absorbing
             get_order start)) = false.
Proof. repeat split. Qed.



Lemma no_repanic_returns_normally_witness :
  result (handle (rt := go120) (sdk := delivering) (chain_panics boom)
            absorbing get_order start) = Ret tt
  /\ fst (handle_body (rt := go120) (sdk := delivering) (chain_panics boom)
            absorbing (mkState start get_order [] None)) = Panicked boom
  /\ filter is_next
       (emitted start
          (handle (rt := go120) (sdk := delivering) (chain_panics boom)
             absorbing get_order start)) = [ENext order_handed_on]
  /\ precedes is_next is_panic_recovery
       (emitted start
          (handle (rt := go120) (sdk := delivering) (chain_panics boom)
             absorbing get_order start)) = true
  /\ existsb is_report
       (emitted start
          (handle (rt := go120) (sdk := delivering) (chain_panics boom)
             absorbing get_order start)) = true
  /\ precedes is_next is_report
       (emitted start
          (handle (rt := go120) (sdk := delivering) (chain_panics boom)
             absorbing get_order start)) = true.
Proof.
  exact (@no_repanic_returns_normally go120 delivering (chain_panics boom)
           absorbing get_order start boom eq_refl eq_refl).
Defined.

(** With [WaitForDelivery] and an event identifier the flush happens, once,
    with the handler's 500ms, after the report. *)
Lemma flush_iff_event_and_wait_witness :
  filter is_flush
    (emitted start
       (handle (rt := go120) (sdk := delivering) (chain_panics boom)
          absorbing get_order start)) = [EFlush 0 500000000%Z]
  /\ precedes is_report is_flush
       (emitted start
          (handle (rt := go120) (sdk := delivering) (chain_panics boom)
             absorbing get_order start)) = true.
Proof.
  pose proof (@flush_iff_event_and_wait go120 delivering (chain_panics boom)
                absorbing get_order start boom eq_refl eq_refl)
    as (_ & Hiff & Hone).
  apply Hone. apply Hiff. split; [discriminate|reflexivity].
Defined.

(** When the SDK drops the report, or the handler does not wait, there is
    no flush. *)
Example no_flush_when_report_dropped :
  existsb is_flush
    (emitted start
       (handle (rt := go120) (sdk := dropping) (chain_panics boom) absorbing
          get_order start)) = false.
Proof. reflexivity. Qed.

Example no_flush_without_wait :
  existsb is_flush
    (emitted start
       (handle (rt := go120) (sdk := delivering) (chain_panics boom)
          repanicking get_order start)) = false.
Proof. reflexivity. Qed.

Lemma no_panic_one_span_no_report_witness :
  (exists ctx op opts,
     filter is_span_start
       (emitted start
          (handle (rt := go120) (sdk := delivering) chain_returns absorbing
             get_order start)) =
     [EStartSpan ctx op opts (mkSpan 1 order_ctx)])
  /\ filter is_span_finish
       (emitted start
          (handle (rt := go120) (sdk := delivering) chain_returns absorbing
             get_order start)) =
     [ESpanFinish (mkSpan 1 order_ctx)]
  /\ filter is_report
       (emitted start
          (handle (rt := go120) (sdk := delivering) chain_returns absorbing
             get_order start)) =
     []
  /\ filter is_flush
       (emitted start
          (handle (rt := go120) (sdk := delivering) chain_returns absorbing
             get_order start)) =
     []
  /\ result
       (handle (rt := go120) (sdk := delivering) chain_returns absorbing
          get_order start) =
     Ret tt.
Proof.
  exact (@no_panic_one_span_no_report go120 delivering chain_returns absorbing
           get_order start eq_refl).
Defined.

(** [sentry_go] keeps the hub on derived contexts. *)
Lemma sentry_go_keeps_hub (eventID : option EventID) :
  hub_kept_on_context (sdk := sentry_go eventID).
Proof. split; intros; reflexivity. Qed.

(** Without a hub on the request hub 0 is cloned and the chain finds it;
    with hub 7 on the request nothing is cloned and the chain finds 7. *)
Lemma hub_created_only_when_absent_witness :
  (exists hub op opts span,
     filter is_hub_clone
       (emitted start
          (handle (rt := go120) (sdk := delivering) chain_returns absorbing
             get_order start)) =
     [ECurrentHubClone hub]
     /\ filter is_span_start
          (emitted start
             (handle (rt := go120) (sdk := delivering) chain_returns
                absorbing get_order start)) =
        [EStartSpan (WithValue Background HubContextKey (VHub hub)) op opts span]
     /\ precedes is_hub_clone is_next
          (emitted start
             (handle (rt := go120) (sdk := delivering) chain_returns
                absorbing get_order start)) = true
     /\ GetHubFromContext (SentrySDK := delivering)
          (Request_Context
             (Request_of (downstream (sdk := delivering) absorbing get_order
                            start))) = Some hub)
  /\ (filter is_hub_clone
        (emitted start
           (handle (rt := go120) (sdk := delivering) chain_returns absorbing
              get_order_with_hub start)) = []
      /\ GetHubFromContext (SentrySDK := delivering)
           (Request_Context
              (Request_of (downstream (sdk := delivering) absorbing
                             get_order_with_hub start))) = Some 7).
Proof.
  split.
  - exact (@hub_created_only_when_absent go120 delivering chain_returns
             absorbing get_order start (sentry_go_keeps_hub _)).
  - exact (@hub_created_only_when_absent go120 delivering chain_returns
             absorbing get_order_with_hub start (sentry_go_keeps_hub _)).
Defined.

(** A handler made with a timeout of -5ns flushes with -5ns. *)
Lemma negative_timeout_reaches_flush_witness :
  timeout (New_handler (mkOptions false true (-5)%Z)) = (-5)%Z
  /\ filter is_flush
       (emitted start
          (New (rt := go120) (sdk := delivering) (chain_panics boom)
             (mkOptions false true (-5)%Z) get_order start)) =
     [EFlush 0 (-5)%Z].
Proof.
  refine (@negative_timeout_reaches_flush go120 delivering (chain_panics boom)
            (mkOptions false true (-5)%Z) get_order start boom
            eq_refl eq_refl eq_refl eq_refl _).
  discriminate.
Defined.



(** Behind a first instance that cloned hub 0, a second instance finds
    hub 0, makes its calls on it and clones none. *)
Lemma nested_instance_shares_hub_witness :
  exists hub r1 r2,
    filter is_set_request
      (emitted start
         (handle (rt := go120) (sdk := delivering) chain_returns absorbing
            get_order start)) = [ESetRequest hub r1]
    /\ GetHubFromContext (SentrySDK := delivering)
         (Request_Context
            (Request_of (downstream (sdk := delivering) absorbing get_order
                           start))) = Some hub
    /\ filter is_set_request
         (emitted (mkWorld [] 2)
            (handle (rt := go120) (sdk := delivering) (chain_panics boom)
               repanicking
               (downstream (sdk := delivering) absorbing get_order start)
               (mkWorld [] 2))) = [ESetRequest hub r2]
    /\ filter is_hub_clone
         (emitted (mkWorld [] 2)
            (handle (rt := go120) (sdk := delivering) (chain_panics boom)
               repanicking
               (downstream (sdk := delivering) absorbing get_order start)
               (mkWorld [] 2))) = []
    /\ (forall hub' ctx err eventID,
          In (ERecoverWithContext hub' ctx err eventID)
            (emitted (mkWorld [] 2)
               (handle (rt := go120) (sdk := delivering) (chain_panics boom)
                  repanicking
                  (downstream (sdk := delivering) absorbing get_order start)
                  (mkWorld [] 2))) ->
          hub' = hub).
Proof.
  exact (@nested_instance_shares_hub go120 delivering chain_returns
           (chain_panics boom) absorbing repanicking get_order start
           (mkWorld [] 2) (sentry_go_keeps_hub _)).
Defined.
